(** * HTTPStatus: the status registry of [HTTPStatus.js]

    The module exports one object literal.  Its first part binds every
    symbolic constant to a number ([NOT_FOUND: 404]); its second part,
    under the comment "Status description", binds every numeric key to a
    reason phrase ([404: 'Not Found']).  Both key spaces live in the same
    object: a property key of a JavaScript object is a string, and a
    numeric key [404] is the key ["404"].

    The object is embedded as a finite map from property keys to values,
    built from the literal in source order.  Reading a property is a
    computation over the object store that hands the store back, so that
    the absence of writes is a statement and not a convention. *)

From Stdlib Require Import ZArith Ascii String DecimalString DecimalZ DecimalPos.
From stdpp Require Import gmap strings list fin_maps.

Local Open Scope Z_scope.
Local Open Scope string_scope.

(** ** Values and property keys *)

(** The values the literal stores; [undefined], which a property read
    yields for a key found nowhere; and the value that [Object.prototype]
    holds under a key of its own, a function or, under ["__proto__"],
    the prototype object itself. *)
Inductive value : Type :=
  | Undefined
  | Num (n : Z)
  | Str (s : string)
  | Inherited (k : string).

#[global] Instance value_eq_dec : EqDecision value.
Proof. solve_decision. Defined.

(** [ToString] of an integer: its decimal numeral, with a leading ["-"]
    below zero.  This is the property key of the numeric key [c]. *)
Definition ToString (c : Z) : string := NilZero.string_of_int (Z.to_int c).

(** ** The literal *)

(** The symbolic constants, lines 49 to 844 of the source, in order. *)
Definition constants : list (string * Z) :=
  [ ("CONTINUE", 100);
    ("SWITCHING_PROTOCOLS", 101);
    ("PROCESSING", 102);
    ("OK", 200);
    ("CREATED", 201);
    ("ACCEPTED", 202);
    ("NON_AUTHORITATIVE_INFORMATION", 203);
    ("NO_CONTENT", 204);
    ("RESET_CONTENT", 205);
    ("PARTIAL_CONTENT", 206);
    ("MULTI_STATUS", 207);
    ("ALREADY_REPORTED", 208);
    ("IM_USED", 209);
    ("MULTIPLE_CHOICES", 300);
    ("MOVED_PERMANENTLY", 301);
    ("FOUND", 302);
    ("SEE_OTHER", 303);
    ("NOT_MODIFIED", 304);
    ("USE_PROXY", 305);
    ("SWITCH_PROXY", 306);
    ("TEMPORARY_REDIRECT", 307);
    ("PERMANENT_REDIRECT", 308);
    ("BAD_REQUEST", 400);
    ("UNAUTHORIZED", 401);
    ("PAYMENT_REQUIRED", 402);
    ("FORBIDDEN", 403);
    ("NOT_FOUND", 404);
    ("METHOD_NOT_ALLOWED", 405);
    ("NOT_ACCEPTABLE", 406);
    ("PROXY_AUTHENTICATION_REQUIRED", 407);
    ("REQUEST_TIMEOUT", 408);
    ("CONFLICT", 409);
    ("GONE", 410);
    ("LENGTH_REQUIRED", 411);
    ("PRECONDITION_FAILED", 412);
    ("REQUEST_ENTITY_TOO_LARGE", 413);
    ("REQUEST_URI_TOO_LONG", 414);
    ("UNSUPPORTED_MEDIA_TYPE", 415);
    ("REQUESTED_RANGE_NOT_SATISFIABLE", 416);
    ("EXPECTATION_FAILED", 417);
    ("I_AM_A_TEAPOT", 418);
    ("AUTHENTICATION_TIMEOUT", 419);
    ("METHOD_FAILURE", 420);
    ("ENHANCE_YOUR_CALM", 420);
    ("UNPROCESSABLE_ENTITY", 422);
    ("LOCKED", 423);
    ("FAILED_DEPENDENCY", 424);
    ("UPGRADE_REQUIRED", 426);
    ("PRECONDITION_REQUIRED", 428);
    ("TOO_MANY_REQUESTS", 429);
    ("REQUEST_HEADER_FIELDS_TOO_LARGE", 431);
    ("LOGIN_TIMEOUT", 440);
    ("NO_RESPONSE", 444);
    ("RETRY_WITH", 449);
    ("BLOCKED_BY_WINDOWS_PARENTAL_CONTROLS", 450);
    ("UNAVAILABLE_FOR_LEGAL_REASONS", 451);
    ("REDIRECT", 451);
    ("REQUEST_HEADER_TOO_LARGE", 494);
    ("CERT_ERROR", 495);
    ("NO_CERT", 496);
    ("HTTP_TO_HTTPS", 497);
    ("TOKEN_EXPIRED", 498);
    ("TOKEN_INVALID", 498);
    ("CLIENT_CLOSED_REQUEST", 499);
    ("TOKEN_REQUIRED", 499);
    ("INTERNAL_SERVER_ERROR", 500);
    ("NOT_IMPLEMENTED", 501);
    ("BAD_GATEWAY", 502);
    ("SERVICE_UNAVAILABLE", 503);
    ("GATEWAY_TIMEOUT", 504);
    ("HTTP_VERSION_NOT_SUPPORTED", 505);
    ("VARIANT_ALSO_NEGOTIATES", 506);
    ("INSUFFICIENT_STORAGE", 507);
    ("LOOP_DETECTED", 508);
    ("BANDWIDTH_LIMIT_EXCEEDED", 509);
    ("NOT_EXTENDED", 510);
    ("NETWORK_AUTHENTICATION_REQUIRED", 511);
    ("ORIGIN_ERROR", 520);
    ("WEB_SERVER_IS_DOWN", 521);
    ("CONNECTION_TIMED_OUT", 522);
    ("PROXY_DECLINED_REQUEST", 523);
    ("A_TIMEOUT_OCCURRED", 524);
    ("NETWORK_READ_TIMEOUT_ERROR", 598);
    ("NETWORK_CONNECT_TIMEOUT_ERROR", 599) ].

(** The status descriptions, lines 849 to 932 of the source, in order. *)
Definition descriptions : list (Z * string) :=
  [ (100, "Continue");
    (101, "Switching Protocols");
    (102, "Processing");
    (200, "OK");
    (201, "Created");
    (202, "Accepted");
    (203, "Non-Authoritative Information");
    (204, "No Content");
    (205, "Reset Content");
    (206, "Partial Content");
    (207, "Multi-Status");
    (208, "Already Reported");
    (209, "IM Used");
    (300, "Multiple Choices");
    (301, "Moved Permanently");
    (302, "Found");
    (303, "See Other");
    (304, "Not Modified");
    (305, "Use Proxy");
    (306, "Switch Proxy");
    (307, "Temporary Redirect");
    (308, "Permanent Redirect");
    (400, "Bad Request");
    (401, "Unauthorized");
    (402, "Payment Required");
    (403, "Forbidden");
    (404, "Not Found");
    (405, "Method Not Allowed");
    (406, "Not Acceptable");
    (407, "Proxy Authentication Required");
    (408, "Request Timeout");
    (409, "Conflict");
    (410, "Gone");
    (411, "Length Required");
    (412, "Precondition Failed");
    (413, "Request Entity Too Large");
    (414, "Request-URI Too Long");
    (415, "Unsupported Media Type");
    (416, "Requested Range Not Satisfiable");
    (417, "Expectation Failed");
    (418, "I'm a teapot");
    (419, "Authentication Timeout");
    (420, "Method Failure (Spring Framework) / Enhance Your Calm (Twitter)");
    (422, "Unprocessable Entity");
    (423, "Locked");
    (424, "Failed Dependency");
    (426, "Upgrade Required");
    (428, "Precondition Required");
    (429, "Too Many Requests");
    (431, "Request Header Fields Too Large");
    (440, "Login Timeout (Microsoft)");
    (444, "No Response (Nginx)");
    (449, "Retry With (Microsoft)");
    (450, "Blocked by Windows Parental Controls (Microsoft)");
    (451, "Unavailable For Legal Reasons / Redirect (Microsoft)");
    (494, "Request Header Too Large (Nginx)");
    (495, "Cert Error (Nginx)");
    (496, "No Cert (Nginx)");
    (497, "HTTP to HTTPS (Nginx)");
    (498, "Token expired/invalid (Esri)");
    (499, "Client Closed Request (Nginx) / Token required (Esri)");
    (500, "Internal Server Error");
    (501, "Not Implemented");
    (502, "Bad Gateway");
    (503, "Service Unavailable");
    (504, "Gateway Timeout");
    (505, "HTTP Version Not Supported");
    (506, "Variant Also Negotiates");
    (507, "Insufficient Storage");
    (508, "Loop Detected");
    (509, "Bandwidth Limit Exceeded (Apache bw/limited extension)");
    (510, "Not Extended");
    (511, "Network Authentication Required");
    (520, "Origin Error (CloudFlare)");
    (521, "Web server is down (CloudFlare)");
    (522, "Connection timed out (CloudFlare)");
    (523, "Proxy Declined Request (CloudFlare)");
    (524, "A timeout occurred (CloudFlare)");
    (598, "Network read timeout error (Unknown)");
    (599, "Network connect timeout error (Unknown)") ].

(** ** The exported object *)

(** The properties of the literal in source order: a constant [N: c] is
    the pair [(N, Num c)], a description [c: 't'] the pair
    [(ToString c, Str t)]. *)
Definition constant_property (e : string * Z) : string * value :=
  (e.1, Num e.2).

Definition description_property (e : Z * string) : string * value :=
  (ToString e.1, Str e.2).

Definition properties : list (string * value) :=
  (constant_property <$> constants) ++ (description_property <$> descriptions).

(** An object literal defines its properties from first to last, a later
    definition of a key replacing an earlier one. *)
Definition define (o : gmap string value) (p : string * value) : gmap string value :=
  <[p.1 := p.2]> o.

Definition HTTPStatus : gmap string value := foldl define ∅ properties.

(** ** Reading the object *)

(** A computation over the object store: it receives the store and
    returns its result together with the store it leaves behind. *)
Definition Access (A : Type) : Type := gmap string value → A * gmap string value.

Definition ret {A : Type} (a : A) : Access A := λ o, (a, o).

Definition bind {A B : Type} (m : Access A) (f : A → Access B) : Access B :=
  λ o, let r := m o in f r.1 r.2.

(** The exported object is a plain literal, so its prototype is
    [Object.prototype].  These are the property names of
    [Object.prototype]: those of the language standard and the legacy
    ones of its annex. *)
Definition ObjectPrototype : list string :=
  [ "constructor"; "hasOwnProperty"; "isPrototypeOf"; "propertyIsEnumerable";
    "toLocaleString"; "toString"; "valueOf";
    "__proto__"; "__defineGetter__"; "__defineSetter__";
    "__lookupGetter__"; "__lookupSetter__" ].

(** What a read finds on the prototype when the object itself has no
    property [k]. *)
Definition inherited (k : string) : value :=
  if bool_decide (k ∈ ObjectPrototype) then Inherited k else Undefined.

(** [o[k]]: the value the object stores under [k]; without such a
    property, the value inherited from the prototype; [undefined] when
    there is none either.  The store [o] holds the object's own
    properties. *)
Definition Get (k : string) : Access value :=
  λ o, (default (inherited k) (o !! k), o).

(** [HTTPStatus[c]] for an integer [c], as in [HTTPStatus[404]]. *)
Definition lookupByCode (c : Z) : Access value := Get (ToString c).

(** [HTTPStatus[n]] for a name [n], as in [HTTPStatus.NOT_FOUND]. *)
Definition lookupBySymbolicName (n : string) : Access value := Get n.

(** The result of a computation started on the exported object. *)
Definition result {A : Type} (m : Access A) : A := (m HTTPStatus).1.

(** ** The unified accessor *)

(** Modelled from the spec: the argument of [getStatusText], an integer
    or a string ([{String|Number} code] in the README). *)
Inductive codeOrName : Type :=
  | Code (c : Z)
  | Name (s : string).

(** Modelled from the spec: the numeric strings and their coercion.  A
    numeric string is a decimal numeral, with an optional leading ["-"];
    it is coerced to the integer it denotes, so that ["0404"] is 404. *)
Definition numeric (s : string) : option Z :=
  Z.of_int <$> NilZero.int_of_string s.

(** Modelled from the spec: [getStatusText], which the README documents
    ([{String} HTTPStatus.getStatusText(code)], with [{String|Number} code])
    and the exported literal does not define.  Following section 4.1 of
    the specification: an integer or a numeric string is coerced to a
    number and looked up as a code; any other string is resolved as a
    symbolic name to a code, whose reason text is then looked up; what
    does not resolve yields [undefined]. *)
Definition getStatusText (x : codeOrName) : Access value :=
  match x with
  | Code c => lookupByCode c
  | Name s =>
      match numeric s with
      | Some c => lookupByCode c
      | None =>
          bind (lookupBySymbolicName s) (λ v,
            match v with
            | Num c => lookupByCode c
            | _ => ret Undefined
            end)
      end
  end.

(** ** The documented table *)

(** The rows "Code | Constant | Text" of the README, in order. *)
Definition readme_codes : list (Z * string * string) :=
  [ (100, "CONTINUE", "Continue");
    (101, "SWITCHING_PROTOCOLS", "Switching Protocols");
    (102, "PROCESSING", "Processing");
    (200, "OK", "OK");
    (201, "CREATED", "Created");
    (202, "ACCEPTED", "Accepted");
    (203, "NON_AUTHORITATIVE_INFORMATION", "Non-Authoritative Information");
    (204, "NO_CONTENT", "No Content");
    (205, "RESET_CONTENT", "Reset Content");
    (206, "PARTIAL_CONTENT", "Partial Content");
    (207, "MULTI_STATUS", "Multi-Status");
    (208, "ALREADY_REPORTED", "Already Reported");
    (209, "IM_USED", "IM Used");
    (300, "MULTIPLE_CHOICES", "Multiple Choices");
    (301, "MOVED_PERMANENTLY", "Moved Permanently");
    (302, "FOUND", "Found");
    (303, "SEE_OTHER", "See Other");
    (304, "NOT_MODIFIED", "Not Modified");
    (305, "USE_PROXY", "Use Proxy");
    (306, "SWITCH_PROXY", "Switch Proxy");
    (307, "TEMPORARY_REDIRECT", "Temporary Redirect");
    (308, "PERMANENT_REDIRECT", "Permanent Redirect");
    (400, "BAD_REQUEST", "Bad Request");
    (401, "UNAUTHORIZED", "Unauthorized");
    (402, "PAYMENT_REQUIRED", "Payment Required");
    (403, "FORBIDDEN", "Forbidden");
    (404, "NOT_FOUND", "Not Found");
    (405, "METHOD_NOT_ALLOWED", "Method Not Allowed");
    (406, "NOT_ACCEPTABLE", "Not Acceptable");
    (407, "PROXY_AUTHENTICATION_REQUIRED", "Proxy Authentication Required");
    (408, "REQUEST_TIMEOUT", "Request Timeout");
    (409, "CONFLICT", "Conflict");
    (410, "GONE", "Gone");
    (411, "LENGTH_REQUIRED", "Length Required");
    (412, "PRECONDITION_FAILED", "Precondition Failed");
    (413, "REQUEST_ENTITY_TOO_LARGE", "Request Entity Too Large");
    (414, "REQUEST_URI_TOO_LONG", "Request-URI Too Long");
    (415, "UNSUPPORTED_MEDIA_TYPE", "Unsupported Media Type");
    (416, "REQUESTED_RANGE_NOT_SATISFIABLE", "Requested Range Not Satisfiable");
    (417, "EXPECTATION_FAILED", "Expectation Failed");
    (418, "I_AM_A_TEAPOT", "I'm a teapot");
    (419, "AUTHENTICATION_TIMEOUT", "Authentication Timeout");
    (420, "METHOD_FAILURE", "Method Failure (Spring Framework) / Enhance Your Calm (Twitter)");
    (420, "ENHANCE_YOUR_CALM", "Method Failure (Spring Framework) / Enhance Your Calm (Twitter)");
    (422, "UNPROCESSABLE_ENTITY", "Unprocessable Entity");
    (423, "LOCKED", "Locked");
    (424, "FAILED_DEPENDENCY", "Failed Dependency");
    (426, "UPGRADE_REQUIRED", "Upgrade Required");
    (428, "PRECONDITION_REQUIRED", "Precondition Required");
    (429, "TOO_MANY_REQUESTS", "Too Many Requests");
    (431, "REQUEST_HEADER_FIELDS_TOO_LARGE", "Request Header Fields Too Large");
    (440, "LOGIN_TIMEOUT", "Login Timeout (Microsoft)");
    (444, "NO_RESPONSE", "No Response (Nginx)");
    (449, "RETRY_WITH", "Retry With (Microsoft)");
    (450, "BLOCKED_BY_WINDOWS_PARENTAL_CONTROLS", "Blocked by Windows Parental Controls (Microsoft)");
    (451, "UNAVAILABLE_FOR_LEGAL_REASONS", "Unavailable For Legal Reasons / Redirect (Microsoft)");
    (451, "REDIRECT", "Unavailable For Legal Reasons / Redirect (Microsoft)");
    (494, "REQUEST_HEADER_TOO_LARGE", "Request Header Too Large (Nginx)");
    (495, "CERT_ERROR", "Cert Error (Nginx)");
    (496, "NO_CERT", "No Cert (Nginx)");
    (497, "HTTP_TO_HTTPS", "HTTP to HTTPS (Nginx)");
    (498, "TOKEN_EXPIRED", "Token expired/invalid (Esri)");
    (498, "TOKEN_INVALID", "Token expired/invalid (Esri)");
    (499, "CLIENT_CLOSED_REQUEST", "Client Closed Request (Nginx) / Token required (Esri)");
    (499, "TOKEN_REQUIRED", "Client Closed Request (Nginx) / Token required (Esri)");
    (500, "INTERNAL_SERVER_ERROR", "Internal Server Error");
    (501, "NOT_IMPLEMENTED", "Not Implemented");
    (502, "BAD_GATEWAY", "Bad Gateway");
    (503, "SERVICE_UNAVAILABLE", "Service Unavailable");
    (504, "GATEWAY_TIMEOUT", "Gateway Timeout");
    (505, "HTTP_VERSION_NOT_SUPPORTED", "HTTP Version Not Supported");
    (506, "VARIANT_ALSO_NEGOTIATES", "Variant Also Negotiates");
    (507, "INSUFFICIENT_STORAGE", "Insufficient Storage");
    (508, "LOOP_DETECTED", "Loop Detected");
    (509, "BANDWIDTH_LIMIT_EXCEEDED", "Bandwidth Limit Exceeded (Apache bw/limited extension)");
    (510, "NOT_EXTENDED", "Not Extended");
    (511, "NETWORK_AUTHENTICATION_REQUIRED", "Network Authentication Required");
    (520, "ORIGIN_ERROR", "Origin Error (CloudFlare)");
    (521, "WEB_SERVER_IS_DOWN", "Web server is down (CloudFlare)");
    (522, "CONNECTION_TIMED_OUT", "Connection timed out (CloudFlare)");
    (523, "PROXY_DECLINED_REQUEST", "Proxy Declined Request (CloudFlare)");
    (524, "A_TIMEOUT_OCCURRED", "A timeout occurred (CloudFlare)");
    (598, "NETWORK_READ_TIMEOUT_ERROR", "Network read timeout error (Unknown)");
    (599, "NETWORK_CONNECT_TIMEOUT_ERROR", "Network connect timeout error (Unknown)") ].

(** ** Reading with a value as key *)

(** The string an inherited value converts to: ["[object Object]"] for
    the prototype object, and for a function its source text, which for
    a built-in function has the form [function f() { [native code] }];
    the function under ["constructor"] is [Object]. *)
Definition inherited_text (k : string) : string :=
  if bool_decide (k = "__proto__") then "[object Object]"
  else "function " ++ (if bool_decide (k = "constructor") then "Object" else k)
         ++ "() { [native code] }".

(** [ToPropertyKey]: the property key a value stands for when it is used
    between the brackets of [o[v]]. *)
Definition ToPropertyKey (v : value) : string :=
  match v with
  | Undefined => "undefined"
  | Num n => ToString n
  | Str s => s
  | Inherited k => inherited_text k
  end.

(** [HTTPStatus[HTTPStatus[k]]], the second way the header comment gives
    to get a description: [HTTPStatus[HTTPStatus.NOT_FOUND]]. *)
Definition description_of (k : string) : Access value :=
  bind (Get k) (λ v, Get (ToPropertyKey v)).

(** ** Writing through the exported object *)






(** ** The shape of the keys *)

(** The characters of the symbolic constants: upper-case letters and the
    underscore. *)
Definition name_char (a : ascii) : bool :=
  (Ascii.leb "A" a && Ascii.leb a "Z") || Ascii.eqb a "_".

Definition name_chars (k : string) : bool :=
  forallb name_char (list_ascii_of_string k).

(** ** The documented defaults *)

(** The [@default] tag of the comment above each constant, with the name
    of the constant it precedes, in order. *)
Definition jsdoc_defaults : list (string * Z) :=
  [ ("CONTINUE", 100);
    ("SWITCHING_PROTOCOLS", 101);
    ("PROCESSING", 102);
    ("OK", 200);
    ("CREATED", 201);
    ("ACCEPTED", 202);
    ("NON_AUTHORITATIVE_INFORMATION", 203);
    ("NO_CONTENT", 204);
    ("RESET_CONTENT", 205);
    ("PARTIAL_CONTENT", 206);
    ("MULTI_STATUS", 207);
    ("ALREADY_REPORTED", 208);
    ("IM_USED", 209);
    ("MULTIPLE_CHOICES", 300);
    ("MOVED_PERMANENTLY", 301);
    ("FOUND", 302);
    ("SEE_OTHER", 303);
    ("NOT_MODIFIED", 304);
    ("USE_PROXY", 305);
    ("SWITCH_PROXY", 306);
    ("TEMPORARY_REDIRECT", 307);
    ("PERMANENT_REDIRECT", 308);
    ("BAD_REQUEST", 400);
    ("UNAUTHORIZED", 401);
    ("PAYMENT_REQUIRED", 402);
    ("FORBIDDEN", 403);
    ("NOT_FOUND", 404);
    ("METHOD_NOT_ALLOWED", 405);
    ("NOT_ACCEPTABLE", 406);
    ("PROXY_AUTHENTICATION_REQUIRED", 407);
    ("REQUEST_TIMEOUT", 408);
    ("CONFLICT", 409);
    ("GONE", 410);
    ("LENGTH_REQUIRED", 411);
    ("PRECONDITION_FAILED", 412);
    ("REQUEST_ENTITY_TOO_LARGE", 413);
    ("REQUEST_URI_TOO_LONG", 414);
    ("UNSUPPORTED_MEDIA_TYPE", 415);
    ("REQUESTED_RANGE_NOT_SATISFIABLE", 416);
    ("EXPECTATION_FAILED", 417);
    ("I_AM_A_TEAPOT", 418);
    ("AUTHENTICATION_TIMEOUT", 419);
    ("METHOD_FAILURE", 420);
    ("ENHANCE_YOUR_CALM", 420);
    ("UNPROCESSABLE_ENTITY", 422);
    ("LOCKED", 423);
    ("FAILED_DEPENDENCY", 424);
    ("UPGRADE_REQUIRED", 426);
    ("PRECONDITION_REQUIRED", 428);
    ("TOO_MANY_REQUESTS", 429);
    ("REQUEST_HEADER_FIELDS_TOO_LARGE", 431);
    ("LOGIN_TIMEOUT", 440);
    ("NO_RESPONSE", 444);
    ("RETRY_WITH", 449);
    ("BLOCKED_BY_WINDOWS_PARENTAL_CONTROLS", 450);
    ("UNAVAILABLE_FOR_LEGAL_REASONS", 451);
    ("REDIRECT", 451);
    ("REQUEST_HEADER_TOO_LARGE", 494);
    ("CERT_ERROR", 495);
    ("NO_CERT", 496);
    ("HTTP_TO_HTTPS", 497);
    ("TOKEN_EXPIRED", 498);
    ("TOKEN_INVALID", 498);
    ("CLIENT_CLOSED_REQUEST", 499);
    ("TOKEN_REQUIRED", 499);
    ("INTERNAL_SERVER_ERROR", 500);
    ("NOT_IMPLEMENTED", 501);
    ("BAD_GATEWAY", 502);
    ("SERVICE_UNAVAILABLE", 503);
    ("GATEWAY_TIMEOUT", 504);
    ("HTTP_VERSION_NOT_SUPPORTED", 505);
    ("VARIANT_ALSO_NEGOTIATES", 506);
    ("INSUFFICIENT_STORAGE", 507);
    ("LOOP_DETECTED", 508);
    ("BANDWIDTH_LIMIT_EXCEEDED", 509);
    ("NOT_EXTENDED", 510);
    ("NETWORK_AUTHENTICATION_REQUIRED", 511);
    ("ORIGIN_ERROR", 520);
    ("WEB_SERVER_IS_DOWN", 521);
    ("CONNECTION_TIMED_OUT", 522);
    ("PROXY_DECLINED_REQUEST", 523);
    ("A_TIMEOUT_OCCURRED", 524);
    ("NETWORK_READ_TIMEOUT_ERROR", 598);
    ("NETWORK_CONNECT_TIMEOUT_ERROR", 599) ].

(** * Properties *)

(** ** Numerals *)

Lemma to_int_proper (c : Z) : Z.to_int c ≠ Decimal.Pos Decimal.Nil ∧ Z.to_int c ≠ Decimal.Neg Decimal.Nil.
Proof.
  destruct c as [|p|p]; cbn; split; try discriminate;
    intros [= E]; exact (Unsigned.to_uint_nonnil p E).
Qed.

Lemma numeric_ToString (c : Z) : numeric (ToString c) = Some c.
Proof.
  unfold numeric, ToString.
  destruct (to_int_proper c) as [Hp Hn].
  rewrite (NilZero.isi _ Hp Hn). cbn. f_equal. apply DecimalZ.of_to.
Qed.

Lemma ToString_inj (c d : Z) : ToString c = ToString d → c = d.
Proof.
  intros E. apply (f_equal numeric) in E.
  rewrite !numeric_ToString in E. congruence.
Qed.

(** ** From the object back to the literal *)

Lemma foldl_define (l : list (string * value)) :
  foldl define ∅ l = list_to_map (reverse l).
Proof.
  induction l as [|p l IH] using rev_ind; [done|].
  rewrite foldl_snoc, reverse_snoc, IH. by destruct p.
Qed.

Lemma properties_NoDup : NoDup properties.*1.
Proof. apply (bool_decide_unpack _). vm_compute. exact I. Qed.

Lemma HTTPStatus_lookup (k : string) (v : value) :
  HTTPStatus !! k = Some v ↔ (k, v) ∈ properties.
Proof.
  unfold HTTPStatus. rewrite foldl_define.
  rewrite <- elem_of_list_to_map.
  - by rewrite elem_of_reverse.
  - rewrite fmap_reverse, reverse_Permutation. apply properties_NoDup.
Qed.

(** A check of every entry of a list, run once and read back at any
    member. *)
Ltac check_entries :=
  apply Forall_forall; apply (bool_decide_unpack _); vm_compute; exact I.

Lemma constants_not_numeric (n : string) (c : Z) :
  (n, c) ∈ constants → numeric n = None.
Proof.
  revert n c.
  assert (H : ∀ e, e ∈ constants → numeric e.1 = None) by check_entries.
  intros n c Hin. exact (H _ Hin).
Qed.

Lemma elem_of_properties (k : string) (v : value) :
  (k, v) ∈ properties ↔
    (∃ c, v = Num c ∧ (k, c) ∈ constants) ∨
    (∃ c t, k = ToString c ∧ v = Str t ∧ (c, t) ∈ descriptions).
Proof.
  unfold properties. rewrite elem_of_app, !list_elem_of_fmap. split.
  - intros [[[n c] [[= -> ->] Hin]]|[[c t] [[= -> ->] Hin]]]; eauto 6.
  - intros [(c & -> & Hin)|(c & t & -> & -> & Hin)].
    + left. by exists (k, c).
    + right. by exists (c, t).
Qed.

(** A symbolic constant is read back as its number. *)
Lemma HTTPStatus_constant (n : string) (c : Z) :
  HTTPStatus !! n = Some (Num c) ↔ (n, c) ∈ constants.
Proof.
  rewrite HTTPStatus_lookup, elem_of_properties. split.
  - intros [(d & [= ->] & Hin)|(d & t & _ & [=] & _)]. done.
  - eauto.
Qed.

(** A numeric key is read back as its description. *)
Lemma HTTPStatus_description (c : Z) (v : value) :
  HTTPStatus !! ToString c = Some v ↔ ∃ t, v = Str t ∧ (c, t) ∈ descriptions.
Proof.
  rewrite HTTPStatus_lookup, elem_of_properties. split.
  - intros [(d & -> & Hin)|(d & t & E & -> & Hin)].
    + apply constants_not_numeric in Hin.
      rewrite numeric_ToString in Hin. discriminate.
    + apply ToString_inj in E as ->. eauto.
  - intros (t & -> & Hin). right. eauto.
Qed.

(** No property name of the prototype is a numeral, and none is a key
    of the literal: the literal shadows nothing. *)
Lemma ObjectPrototype_not_numeric (k : string) :
  k ∈ ObjectPrototype → numeric k = None.
Proof.
  revert k.
  assert (H : ∀ k, k ∈ ObjectPrototype → numeric k = None) by check_entries.
  exact H.
Qed.

Lemma ObjectPrototype_not_own (k : string) :
  k ∈ ObjectPrototype → HTTPStatus !! k = None.
Proof.
  revert k.
  assert (H : ∀ k, k ∈ ObjectPrototype → HTTPStatus !! k = None) by check_entries.
  exact H.
Qed.

Lemma inherited_cases (k : string) :
  ((k ∉ ObjectPrototype) ∧ inherited k = Undefined) ∨
  (k ∈ ObjectPrototype ∧ inherited k = Inherited k).
Proof.
  unfold inherited. destruct (bool_decide_reflect (k ∈ ObjectPrototype)); eauto.
Qed.

Lemma inherited_ToString (c : Z) : inherited (ToString c) = Undefined.
Proof.
  destruct (inherited_cases (ToString c)) as [[_ E]|[Hin _]]; [done|].
  apply ObjectPrototype_not_numeric in Hin.
  rewrite numeric_ToString in Hin. discriminate.
Qed.

Lemma result_Get (k : string) :
  result (Get k) = default (inherited k) (HTTPStatus !! k).
Proof. reflexivity. Qed.

Lemma result_Get_own (k : string) (v : value) :
  v ≠ Undefined → (∀ k', v ≠ Inherited k') →
  result (Get k) = v ↔ HTTPStatus !! k = Some v.
Proof.
  intros Hu Hi. rewrite result_Get. split.
  - destruct (HTTPStatus !! k) as [w|]; cbn; [congruence|].
    intros E. destruct (inherited_cases k) as [[_ E']|[_ E']];
      rewrite E' in E; [by destruct Hu|by destruct (Hi k)].
  - by intros ->.
Qed.

Lemma result_lookupByCode_Str (c : Z) (t : string) :
  result (lookupByCode c) = Str t ↔ (c, t) ∈ descriptions.
Proof.
  unfold lookupByCode. rewrite (result_Get_own _ (Str t)) by done. split.
  - intros E. apply HTTPStatus_description in E as (t' & [= ->] & Hin). done.
  - intros Hin. apply HTTPStatus_description. eauto.
Qed.

Lemma result_lookupByCode_cases (c : Z) :
  result (lookupByCode c) = Undefined ∨
  ∃ t, (c, t) ∈ descriptions ∧ result (lookupByCode c) = Str t.
Proof.
  unfold lookupByCode. rewrite result_Get.
  destruct (HTTPStatus !! ToString c) as [v|] eqn:E; cbn.
  - apply HTTPStatus_description in E as (t & -> & Hin). right. eauto.
  - left. apply inherited_ToString.
Qed.

Lemma result_lookupBySymbolicName_Num (n : string) (c : Z) :
  result (lookupBySymbolicName n) = Num c ↔ (n, c) ∈ constants.
Proof.
  unfold lookupBySymbolicName.
  by rewrite (result_Get_own _ (Num c)), HTTPStatus_constant.
Qed.

(** Every number a constant stands for has a description. *)
Lemma constants_described (n : string) (c : Z) :
  (n, c) ∈ constants → ∃ t, (c, t) ∈ descriptions.
Proof.
  revert n c.
  assert (H : ∀ e, e ∈ constants → bool_decide (e.2 ∈ descriptions.*1))
    by check_entries.
  intros n c Hin. pose proof (bool_decide_unpack _ (H _ Hin)) as Hd.
  cbn [snd] in Hd. apply list_elem_of_fmap in Hd as ([c' t] & -> & Hd). eauto.
Qed.

(** Reading leaves the store as it was. *)
Lemma Get_store (k : string) (o : gmap string value) : (Get k o).2 = o.
Proof. reflexivity. Qed.

Lemma getStatusText_numeric (s : string) (c : Z) (o : gmap string value) :
  numeric s = Some c → getStatusText (Name s) o = lookupByCode c o.
Proof. intros Hs. unfold getStatusText. by rewrite Hs. Qed.

Lemma getStatusText_symbolic (s : string) (o : gmap string value) :
  numeric s = None →
  getStatusText (Name s) o =
    match (lookupBySymbolicName s o).1 with
    | Num c => lookupByCode c o
    | _ => (Undefined, o)
    end.
Proof.
  intros Hs. unfold getStatusText. rewrite Hs. unfold bind.
  rewrite Get_store. by destruct (lookupBySymbolicName s o).1.
Qed.

Lemma getStatusText_store (x : codeOrName) (o : gmap string value) :
  (getStatusText x o).2 = o.
Proof.
  destruct x as [c|s]; [done|].
  destruct (numeric s) as [c|] eqn:Hs.
  - by rewrite (getStatusText_numeric _ _ _ Hs).
  - rewrite (getStatusText_symbolic _ _ Hs).
    by destruct (lookupBySymbolicName s o).1.
Qed.

Lemma description_of_store (k : string) (o : gmap string value) :
  (description_of k o).2 = o.
Proof. reflexivity. Qed.


(** * The claims *)

(** C1. [getStatusText] dispatches on its argument.  On an integer, and
    on a numeric string after its coercion to a number, it is the lookup
    of that code.  On any other string it resolves the name to its code
    and is then the lookup of that code.  When the argument resolves
    neither way, it yields [undefined].  On the exported object it thus
    returns either [undefined] or the reason text of a described code. *)
Theorem getStatusText_dispatch :
  (∀ (c : Z) (o : gmap string value),
     getStatusText (Code c) o = lookupByCode c o) ∧
  (∀ (s : string) (c : Z) (o : gmap string value), numeric s = Some c →
     getStatusText (Name s) o = lookupByCode c o) ∧
  (∀ (s : string) (c : Z) (o : gmap string value), numeric s = None →
     (lookupBySymbolicName s o).1 = Num c →
     getStatusText (Name s) o = lookupByCode c o) ∧
  (∀ (s : string) (o : gmap string value), numeric s = None →
     (∀ c : Z, (lookupBySymbolicName s o).1 ≠ Num c) →
     getStatusText (Name s) o = (Undefined, o)) ∧
  (∀ x : codeOrName,
     result (getStatusText x) = Undefined ∨
     ∃ (c : Z) (t : string),
       (c, t) ∈ descriptions ∧ result (getStatusText x) = Str t).
Proof.
  split; [done|]. split; [exact getStatusText_numeric|]. split; [|split].
  - intros s c o Hs Hn. by rewrite (getStatusText_symbolic _ _ Hs), Hn.
  - intros s o Hs Hn. rewrite (getStatusText_symbolic _ _ Hs).
    destruct (lookupBySymbolicName s o).1 as [|c|t|k] eqn:E; [done| |done|done].
    by destruct (Hn c).
  - assert (Hcode : ∀ c : Z,
      result (lookupByCode c) = Undefined ∨
      ∃ (c' : Z) (t : string),
        (c', t) ∈ descriptions ∧ result (lookupByCode c) = Str t).
    { intros c. destruct (result_lookupByCode_cases c) as [E|(t & Hin & E)]; eauto. }
    intros [c|s]; [apply Hcode|].
    unfold result. destruct (numeric s) as [c|] eqn:Hs.
    + rewrite (getStatusText_numeric _ _ _ Hs). apply Hcode.
    + rewrite (getStatusText_symbolic _ _ Hs).
      destruct (lookupBySymbolicName s HTTPStatus).1 as [|c|t|k];
        [by left|apply Hcode|by left|by left].
Qed.

Lemma getStatusText_dispatch_witness :
  result (getStatusText (Code 404)) = Str "Not Found" ∧
  result (getStatusText (Name "404")) = Str "Not Found" ∧
  result (getStatusText (Name "NOT_FOUND")) = Str "Not Found" ∧
  result (getStatusText (Code 418)) = Str "I'm a teapot" ∧
  result (getStatusText (Code 999)) = Undefined ∧
  result (getStatusText (Name "NOT_A_REAL_STATUS")) = Undefined.
Proof.
  destruct getStatusText_dispatch as (Hcode & Hnum & Hname & Hnone & _).
  unfold result.
  rewrite (Hcode 404), (Hcode 418), (Hcode 999).
  rewrite (Hnum "404" 404 HTTPStatus eq_refl).
  rewrite (Hname "NOT_FOUND" 404 HTTPStatus eq_refl eq_refl).
  rewrite (Hnone "NOT_A_REAL_STATUS" HTTPStatus eq_refl).
  - repeat split.
  - intros c. vm_compute. discriminate.
Defined.

(** C2. Every row "Code | Constant | Text" of the documented table agrees
    with the object: reading the row's code yields exactly the row's
    text.  In particular [HTTPStatus[404]] is ["Not Found"] and
    [HTTPStatus[418]] is ["I'm a teapot"]. *)
Theorem documented_reason_texts :
  Forall (λ row, result (lookupByCode row.1.1) = Str row.2) readme_codes ∧
  result (lookupByCode 404) = Str "Not Found" ∧
  result (lookupByCode 418) = Str "I'm a teapot".
Proof.
  split; [|split; reflexivity].
  apply (bool_decide_unpack _). vm_compute. exact I.
Qed.

(** C3. Every row of the documented table agrees with the object: reading
    the row's constant yields exactly the row's code.  In particular
    [HTTPStatus.OK] is [200] and [HTTPStatus.NOT_FOUND] is [404]. *)
Theorem documented_codes :
  Forall (λ row, result (lookupBySymbolicName row.1.2) = Num row.1.1) readme_codes ∧
  result (lookupBySymbolicName "OK") = Num 200 ∧
  result (lookupBySymbolicName "NOT_FOUND") = Num 404.
Proof.
  split; [|split; reflexivity].
  apply (bool_decide_unpack _). vm_compute. exact I.
Qed.

(** C4. A read never raises: it returns a value and leaves the object
    as it was.  For a key that the literal does not define and that is
    not a property name of [Object.prototype], the value is [undefined];
    so it is for every integer without a description, no numeral being
    such a name.  For a property name of [Object.prototype], none of
    which the literal defines, the value is the inherited one.  In
    particular [HTTPStatus[999]] and [HTTPStatus["NOT_A_REAL_STATUS"]]
    are [undefined]. *)
Theorem absent_key_reads :
  (∀ k : string, k ∉ properties.*1 → k ∉ ObjectPrototype →
     Get k HTTPStatus = (Undefined, HTTPStatus)) ∧
  (∀ k : string, k ∈ ObjectPrototype →
     (k ∉ properties.*1) ∧ Get k HTTPStatus = (Inherited k, HTTPStatus)) ∧
  (∀ c : Z, c ∉ descriptions.*1 →
     lookupByCode c HTTPStatus = (Undefined, HTTPStatus)) ∧
  (∀ n : string, n ∉ constants.*1 → (∀ c, c ∈ descriptions.*1 → n ≠ ToString c) →
     n ∉ ObjectPrototype →
     lookupBySymbolicName n HTTPStatus = (Undefined, HTTPStatus)) ∧
  result (lookupByCode 999) = Undefined ∧
  result (lookupBySymbolicName "NOT_A_REAL_STATUS") = Undefined.
Proof.
  assert (Hown : ∀ k : string, k ∉ properties.*1 → HTTPStatus !! k = None).
  { intros k Hk. destruct (HTTPStatus !! k) as [v|] eqn:E; [|done].
    exfalso. apply Hk. apply HTTPStatus_lookup in E.
    apply list_elem_of_fmap. by exists (k, v). }
  assert (Habsent : ∀ k : string, k ∉ properties.*1 → k ∉ ObjectPrototype →
            Get k HTTPStatus = (Undefined, HTTPStatus)).
  { intros k Hk Hp. unfold Get. rewrite (Hown k Hk). cbn [from_option].
    destruct (inherited_cases k) as [[_ ->]|[Hin _]];
      [reflexivity|destruct (Hp Hin)]. }
  split; [exact Habsent|]. split; [|split; [|split; [|split; reflexivity]]].
  - intros k Hp. pose proof (ObjectPrototype_not_own k Hp) as Hnone. split.
    + intros Hin. apply list_elem_of_fmap in Hin as ([k' v] & -> & Hin).
      apply HTTPStatus_lookup in Hin. cbn [fst] in Hnone. congruence.
    + unfold Get. rewrite Hnone. cbn [from_option].
      destruct (inherited_cases k) as [[Hn _]|[_ ->]];
        [destruct (Hn Hp)|reflexivity].
  - intros c Hc. unfold lookupByCode, Get.
    destruct (HTTPStatus !! ToString c) as [v|] eqn:E.
    + exfalso. apply Hc. apply HTTPStatus_description in E as (t & _ & Hin).
      apply list_elem_of_fmap. by exists (c, t).
    + cbn [from_option]. rewrite inherited_ToString. reflexivity.
  - intros n Hn Hnum Hp. apply Habsent; [|done]. intros Hin.
    apply list_elem_of_fmap in Hin as ([k v] & -> & Hin).
    apply elem_of_properties in Hin as [(c & _ & Hin)|(c & t & E & _ & Hin)];
      cbn [fst] in *.
    + apply Hn, list_elem_of_fmap. by exists (k, c).
    + apply (Hnum c); [|done]. apply list_elem_of_fmap. by exists (c, t).
Qed.

Lemma absent_key_reads_witness :
  lookupByCode 999 HTTPStatus = (Undefined, HTTPStatus) ∧
  Get "NOT_A_REAL_STATUS" HTTPStatus = (Undefined, HTTPStatus) ∧
  Get "toString" HTTPStatus = (Inherited "toString", HTTPStatus).
Proof.
  destruct absent_key_reads as (Hkey & Hproto & Hcode & _).
  split; [|split].
  - apply (Hcode 999). apply (bool_decide_unpack _). vm_compute. exact I.
  - apply (Hkey "NOT_A_REAL_STATUS"); apply (bool_decide_unpack _); vm_compute; exact I.
  - apply (Hproto "toString"). apply (bool_decide_unpack _). vm_compute. exact I.
Defined.

(** The key ["constructor"] is absent from the tables, and its read is
    not [undefined]: it is the function the object inherits. *)
Lemma inherited_key_not_undefined :
  ("constructor" ∉ properties.*1) ∧
  result (lookupBySymbolicName "constructor") = Inherited "constructor".
Proof.
  split; [|reflexivity].
  apply (bool_decide_unpack _). vm_compute. exact I.
Qed.

(** C5. The two names of each dual alias read as the same code: 420 for
    METHOD_FAILURE and ENHANCE_YOUR_CALM, 451 for
    UNAVAILABLE_FOR_LEGAL_REASONS and REDIRECT, 498 for TOKEN_EXPIRED and
    TOKEN_INVALID, 499 for CLIENT_CLOSED_REQUEST and TOKEN_REQUIRED. *)
Theorem dual_aliases_agree :
  result (lookupBySymbolicName "METHOD_FAILURE") = Num 420 ∧
  result (lookupBySymbolicName "ENHANCE_YOUR_CALM") = Num 420 ∧
  result (lookupBySymbolicName "UNAVAILABLE_FOR_LEGAL_REASONS") = Num 451 ∧
  result (lookupBySymbolicName "REDIRECT") = Num 451 ∧
  result (lookupBySymbolicName "TOKEN_EXPIRED") = Num 498 ∧
  result (lookupBySymbolicName "TOKEN_INVALID") = Num 498 ∧
  result (lookupBySymbolicName "CLIENT_CLOSED_REQUEST") = Num 499 ∧
  result (lookupBySymbolicName "TOKEN_REQUIRED") = Num 499.
Proof. repeat split; reflexivity. Qed.

(** C6. When a symbolic name reads as the code [c], [getStatusText] of
    the name and [getStatusText] of [c] return the same value, which is
    the reason text of [c]. *)
Theorem alias_consistency (n : string) (c : Z) :
  result (lookupBySymbolicName n) = Num c →
  result (getStatusText (Name n)) = result (getStatusText (Code c)) ∧
  ∃ t : string, (c, t) ∈ descriptions ∧ result (getStatusText (Code c)) = Str t.
Proof.
  intros Hn. split.
  - pose proof Hn as Hin. apply result_lookupBySymbolicName_Num in Hin.
    apply constants_not_numeric in Hin.
    unfold result in *. by rewrite (getStatusText_symbolic _ _ Hin), Hn.
  - apply result_lookupBySymbolicName_Num, constants_described in Hn as [t Ht].
    exists t. split; [done|]. by apply result_lookupByCode_Str.
Qed.

Lemma alias_consistency_witness :
  result (getStatusText (Name "ENHANCE_YOUR_CALM")) =
    result (getStatusText (Code 420)).
Proof. exact (proj1 (alias_consistency "ENHANCE_YOUR_CALM" 420 eq_refl)). Defined.

(** C7. Every integer whose read yields anything but [undefined] lies in
    [100, 599]; 100 and 599 are themselves such integers, so they are the
    least and the greatest, and they read as the documented phrases
    ["Continue"] and ["Network connect timeout error (Unknown)"]. *)
Theorem mapped_codes_in_range :
  (∀ c : Z, result (lookupByCode c) ≠ Undefined → (100 ≤ c ≤ 599)%Z) ∧
  result (lookupByCode 100) = Str "Continue" ∧
  result (lookupByCode 599) = Str "Network connect timeout error (Unknown)".
Proof.
  split; [|split; reflexivity].
  intros c Hc.
  destruct (result_lookupByCode_cases c) as [E|(t & Hin & _)]; [destruct (Hc E)|].
  assert (H : ∀ e, e ∈ descriptions → (100 ≤ e.1 ≤ 599)%Z) by check_entries.
  exact (H _ Hin).
Qed.

Lemma mapped_codes_in_range_witness :
  result (lookupByCode 404) = Str "Not Found" ∧ (100 ≤ 404 ≤ 599)%Z.
Proof.
  split; [reflexivity|].
  apply (proj1 mapped_codes_in_range 404). vm_compute. discriminate.
Defined.

(** C8. No key is written twice in the literal, so every symbolic name
    is one key; a name reads as the one number the literal gives it; and
    every reason text the object holds is a non-empty string, which every
    number a constant stands for has. *)
Theorem names_unique_texts_nonempty :
  NoDup properties.*1 ∧
  NoDup constants.*1 ∧
  (∀ (n : string) (c : Z), (n, c) ∈ constants →
     result (lookupBySymbolicName n) = Num c ∧
     ∀ c' : Z, (n, c') ∈ constants → c' = c) ∧
  (∀ (c : Z) (t : string), result (lookupByCode c) = Str t → t ≠ "") ∧
  (∀ (n : string) (c : Z), (n, c) ∈ constants →
     ∃ t : string, result (lookupByCode c) = Str t ∧ t ≠ "").
Proof.
  assert (Htext : ∀ (c : Z) (t : string), result (lookupByCode c) = Str t → t ≠ "").
  { intros c t Hr. apply result_lookupByCode_Str in Hr.
    assert (H : ∀ e, e ∈ descriptions → e.2 ≠ "") by check_entries.
    exact (H _ Hr). }
  split; [exact properties_NoDup|].
  split; [apply (bool_decide_unpack _); vm_compute; exact I|].
  split; [|split; [exact Htext|]].
  - intros n c Hin. split; [by apply result_lookupBySymbolicName_Num|].
    intros c' Hin'.
    apply result_lookupBySymbolicName_Num in Hin, Hin'. congruence.
  - intros n c Hin. destruct (constants_described _ _ Hin) as [t Ht].
    apply result_lookupByCode_Str in Ht. eauto.
Qed.

Lemma names_unique_texts_nonempty_witness :
  result (lookupBySymbolicName "REDIRECT") = Num 451 ∧
  "Unavailable For Legal Reasons / Redirect (Microsoft)" ≠ "".
Proof.
  destruct names_unique_texts_nonempty as (_ & _ & Hname & Htext & _).
  split.
  - apply (Hname "REDIRECT" 451). apply (bool_decide_unpack _). vm_compute. exact I.
  - apply (Htext 451). reflexivity.
Defined.




(** C10. The descriptions have gaps inside [100, 599]: 421 and 425 lie
    in the interval, have no description, and reading them yields
    [undefined]. *)
Theorem gaps_in_range :
  ((100 ≤ 421 ≤ 599)%Z ∧ (421 ∉ descriptions.*1) ∧ result (lookupByCode 421) = Undefined) ∧
  ((100 ≤ 425 ≤ 599)%Z ∧ (425 ∉ descriptions.*1) ∧ result (lookupByCode 425) = Undefined).
Proof.
  repeat split; try lia; try reflexivity;
    apply (bool_decide_unpack _); vm_compute; exact I.
Qed.

(** * Further properties of the literal *)

(** A check of every pair, and of every triple, of entries. *)
Lemma Forall_pairs {A B : Type} (P : A → B → Prop) (l : list A) (k : list B) :
  Forall (λ a, Forall (P a) k) l → ∀ a b, a ∈ l → b ∈ k → P a b.
Proof.
  intros H a b Ha Hb.
  exact (proj1 (Forall_forall _ _) (proj1 (Forall_forall _ _) H a Ha) b Hb).
Qed.

Ltac check_pairs := apply (bool_decide_unpack _); vm_compute; exact I.

(** X1. The documented table and the literal say the same, row for row:
    [c | n | t] is a row of the README exactly when the object reads the
    name [n] as [c] and the code [c] as [t].  Nothing is documented that
    the object does not hold, and nothing it holds is undocumented. *)
Theorem readme_table_exact (c : Z) (n t : string) :
  (c, n, t) ∈ readme_codes ↔
  result (lookupBySymbolicName n) = Num c ∧ result (lookupByCode c) = Str t.
Proof.
  rewrite result_lookupBySymbolicName_Num, result_lookupByCode_Str. split.
  - assert (H : ∀ r, r ∈ readme_codes →
               (r.1.2, r.1.1) ∈ constants ∧ (r.1.1, r.2) ∈ descriptions)
      by check_entries.
    intros Hin. exact (H _ Hin).
  - assert (H : Forall (λ e : string * Z, Forall (λ d : Z * string,
                 d.1 = e.2 → (e.2, e.1, d.2) ∈ readme_codes) descriptions)
               constants) by check_pairs.
    intros [Hn Ht]. exact (Forall_pairs _ _ _ H _ _ Hn Ht eq_refl).
Qed.

(** X2. What a read can return, by the shape of its key.  A read of any
    property key returns [undefined]; or a number in [100, 599], and then
    the key is made of upper-case letters and underscores only; or a
    text, and then the key is the decimal numeral, without sign, leading
    zeros or blanks, of an integer in [100, 599]; or an inherited value,
    and then the key is a property name of [Object.prototype]. *)
Theorem read_shapes (k : string) :
  result (Get k) = Undefined ∨
  (∃ c : Z, result (Get k) = Num c ∧ name_chars k = true ∧ (100 ≤ c ≤ 599)%Z) ∨
  (∃ (c : Z) (t : string),
     result (Get k) = Str t ∧ k = ToString c ∧ (100 ≤ c ≤ 599)%Z) ∨
  (result (Get k) = Inherited k ∧ k ∈ ObjectPrototype).
Proof.
  rewrite result_Get. destruct (HTTPStatus !! k) as [v|] eqn:E; cbn.
  - right. apply HTTPStatus_lookup, elem_of_properties in E.
    destruct E as [(c & -> & Hin)|(c & t & -> & -> & Hin)].
    + left. exists c.
      assert (H : ∀ e, e ∈ constants →
                 name_chars e.1 = true ∧ (100 ≤ e.2 ≤ 599)%Z) by check_entries.
      split; [done|]. exact (H _ Hin).
    + right. left. exists c, t.
      assert (H : ∀ e, e ∈ descriptions → (100 ≤ e.1 ≤ 599)%Z) by check_entries.
      split; [done|]. split; [done|]. exact (H _ Hin).
  - destruct (inherited_cases k) as [[_ ->]|[Hin ->]]; [by left|].
    right. right. right. split; [reflexivity|exact Hin].
Qed.

(** X3. A code has a symbolic name exactly when it has a description:
    some name reads as [c] if and only if [c] reads as a text. *)
Theorem named_iff_described (c : Z) :
  (∃ n : string, result (lookupBySymbolicName n) = Num c) ↔
  (∃ t : string, result (lookupByCode c) = Str t).
Proof.
  split.
  - intros [n Hn].
    apply result_lookupBySymbolicName_Num, constants_described in Hn as [t Ht].
    exists t. by apply result_lookupByCode_Str.
  - intros [t Ht]. apply result_lookupByCode_Str in Ht.
    assert (H : ∀ d, d ∈ descriptions → bool_decide (d.1 ∈ constants.*2))
      by check_entries.
    pose proof (bool_decide_unpack _ (H _ Ht)) as Hd. cbn [fst] in Hd.
    apply list_elem_of_fmap in Hd as ([n c'] & -> & Hd).
    exists n. by apply result_lookupBySymbolicName_Num.
Qed.

(** X4. The names determine the code one to one, the four dual aliases
    apart: two different names that read as the same code read as 420,
    451, 498 or 499. *)
Theorem shared_code_is_dual_alias (n n' : string) (c : Z) :
  result (lookupBySymbolicName n) = Num c →
  result (lookupBySymbolicName n') = Num c →
  n ≠ n' →
  c = 420 ∨ c = 451 ∨ c = 498 ∨ c = 499.
Proof.
  rewrite !result_lookupBySymbolicName_Num. intros Hn Hn' Hne.
  assert (H : Forall (λ e : string * Z, Forall (λ e' : string * Z,
                 e.2 = e'.2 → e.1 ≠ e'.1 →
                 e.2 = 420 ∨ e.2 = 451 ∨ e.2 = 498 ∨ e.2 = 499) constants)
               constants) by check_pairs.
  exact (Forall_pairs _ _ _ H _ _ Hn Hn' eq_refl Hne).
Qed.

Lemma shared_code_is_dual_alias_witness :
  451 = 420 ∨ 451 = 451 ∨ 451 = 498 ∨ 451 = 499.
Proof.
  apply (shared_code_is_dual_alias "UNAVAILABLE_FOR_LEGAL_REASONS" "REDIRECT" 451);
    [reflexivity|reflexivity|discriminate].
Defined.

(** X5. No code has more than two names: of three names that read as
    the same code, two are the same name. *)
Theorem at_most_two_names (n1 n2 n3 : string) (c : Z) :
  result (lookupBySymbolicName n1) = Num c →
  result (lookupBySymbolicName n2) = Num c →
  result (lookupBySymbolicName n3) = Num c →
  n1 = n2 ∨ n1 = n3 ∨ n2 = n3.
Proof.
  rewrite !result_lookupBySymbolicName_Num. intros H1 H2 H3.
  assert (H : Forall (λ e1 : string * Z, Forall (λ e2 : string * Z,
                 e1.2 = e2.2 → e1.1 ≠ e2.1 →
                 Forall (λ e3 : string * Z,
                   e1.2 = e3.2 → e1.1 = e3.1 ∨ e2.1 = e3.1) constants)
               constants) constants) by check_pairs.
  destruct (decide (n1 = n2)) as [E|Hne]; [by left|right].
  pose proof (Forall_pairs _ _ _ H _ _ H1 H2 eq_refl Hne) as H'.
  exact (proj1 (Forall_forall _ _) H' _ H3 eq_refl).
Qed.

Lemma at_most_two_names_witness :
  "TOKEN_EXPIRED" = "TOKEN_INVALID" ∨ "TOKEN_EXPIRED" = "TOKEN_EXPIRED" ∨
  "TOKEN_INVALID" = "TOKEN_EXPIRED".
Proof.
  apply (at_most_two_names "TOKEN_EXPIRED" "TOKEN_INVALID" "TOKEN_EXPIRED" 498);
    reflexivity.
Defined.

(** X6. Different codes have different reason texts: two codes that read
    as the same text are the same code, so a text identifies its code. *)
Theorem reason_text_identifies_code (c c' : Z) (t : string) :
  result (lookupByCode c) = Str t →
  result (lookupByCode c') = Str t →
  c = c'.
Proof.
  rewrite !result_lookupByCode_Str. intros Hc Hc'.
  assert (H : Forall (λ d : Z * string, Forall (λ d' : Z * string,
                 d.2 = d'.2 → d.1 = d'.1) descriptions) descriptions)
    by check_pairs.
  exact (Forall_pairs _ _ _ H _ _ Hc Hc' eq_refl).
Qed.

Lemma reason_text_identifies_code_witness : 498 = 498.
Proof.
  apply (reason_text_identifies_code 498 498 "Token expired/invalid (Esri)");
    reflexivity.
Defined.

Lemma result_Get_Str (k : string) (t : string) :
  result (Get k) = Str t ↔ ∃ c : Z, k = ToString c ∧ (c, t) ∈ descriptions.
Proof.
  rewrite (result_Get_own _ (Str t)) by done. split.
  - intros E. apply HTTPStatus_lookup, elem_of_properties in E.
    destruct E as [(c & [=] & _)|(c & t' & -> & [= ->] & Hin)]. eauto.
  - intros (c & -> & Hin). apply HTTPStatus_description. eauto.
Qed.

Lemma result_Get_Inherited (k k' : string) :
  result (Get k) = Inherited k' → k' = k ∧ k ∈ ObjectPrototype.
Proof.
  rewrite result_Get. destruct (HTTPStatus !! k) as [v|] eqn:E; cbn.
  - intros ->. apply HTTPStatus_lookup, elem_of_properties in E.
    by destruct E as [(c & [=] & _)|(c & t & _ & [=] & _)].
  - destruct (inherited_cases k) as [[_ ->]|[Hin ->]]; [done|].
    intros [= ->]. split; [reflexivity|exact Hin].
Qed.

(** The text of an inherited value is no key of the literal. *)
Lemma inherited_text_no_key (k : string) :
  k ∈ ObjectPrototype →
  numeric (inherited_text k) = None ∧ inherited_text k ∉ constants.*1.
Proof.
  revert k.
  assert (H : ∀ k, k ∈ ObjectPrototype →
             numeric (inherited_text k) = None ∧ inherited_text k ∉ constants.*1)
    by check_entries.
  exact H.
Qed.

Lemma description_of_result (k : string) :
  result (description_of k) = result (Get (ToPropertyKey (result (Get k)))).
Proof. reflexivity. Qed.

Lemma texts_not_numeric (c : Z) (t : string) :
  (c, t) ∈ descriptions → numeric t = None.
Proof.
  assert (H : ∀ d, d ∈ descriptions → numeric d.2 = None) by check_entries.
  intros Hin. exact (H _ Hin).
Qed.

(** X7. The double read [HTTPStatus[HTTPStatus[k]]].  It returns a text
    exactly when [k] is a symbolic name, and the text is then the
    description of the code the name stands for.  It returns a number in
    one case only: the description of 200 is ['OK'], which is also the
    name of a constant, so that [HTTPStatus[HTTPStatus["200"]]] is 200. *)
Theorem description_of_reads (k : string) :
  (∀ t : string,
     result (description_of k) = Str t ↔
     ∃ c : Z, result (lookupBySymbolicName k) = Num c ∧
              result (lookupByCode c) = Str t) ∧
  (∀ c : Z, result (description_of k) = Num c ↔ k = "200" ∧ c = 200).
Proof.
  rewrite description_of_result. split.
  - intros t. split.
    + intros Ht. apply result_Get_Str in Ht as (c & Hkey & Hin).
      destruct (result (Get k)) as [|c'|t'|k'] eqn:E; cbn [ToPropertyKey] in Hkey.
      * apply (f_equal numeric) in Hkey. rewrite numeric_ToString in Hkey.
        discriminate.
      * apply ToString_inj in Hkey as ->. exists c.
        split; [exact E|]. by apply result_lookupByCode_Str.
      * apply result_Get_Str in E as (c0 & _ & Hin0).
        apply texts_not_numeric in Hin0.
        rewrite Hkey, numeric_ToString in Hin0. discriminate.
      * apply result_Get_Inherited in E as [-> Hp].
        apply inherited_text_no_key in Hp as [Hp _].
        rewrite Hkey, numeric_ToString in Hp. discriminate.
    + intros (c & Hn & Ht). change (result (Get k) = Num c) in Hn.
      rewrite Hn. exact Ht.
  - intros c. split.
    + intros Hc. change (result (lookupBySymbolicName
                                   (ToPropertyKey (result (Get k)))) = Num c) in Hc.
      apply result_lookupBySymbolicName_Num in Hc.
      destruct (result (Get k)) as [|c'|t'|k'] eqn:E; cbn [ToPropertyKey] in Hc;
        [| | |apply result_Get_Inherited in E as [-> Hp];
              apply inherited_text_no_key in Hp as [_ Hp];
              destruct Hp; apply list_elem_of_fmap;
              by exists (inherited_text k, c)].
      * exfalso. revert Hc. apply (bool_decide_unpack _). vm_compute. exact I.
      * apply constants_not_numeric in Hc. rewrite numeric_ToString in Hc.
        discriminate.
      * apply result_Get_Str in E as (c0 & -> & Hin0).
        assert (H : Forall (λ d : Z * string, Forall (λ e : string * Z,
                       e.1 = d.2 → d.1 = 200 ∧ e.2 = 200) constants)
                     descriptions) by check_pairs.
        destruct (Forall_pairs _ _ _ H _ _ Hin0 Hc eq_refl) as [E1 E2].
        cbn [fst snd] in E1, E2. by subst.
    + intros [-> ->]. reflexivity.
Qed.

(** X8. The documented defaults are the values: the comment above every
    constant carries a [@default] tag, and the number on the tag is the
    number the constant reads as. *)
Theorem jsdoc_defaults_agree :
  jsdoc_defaults.*1 = constants.*1 ∧
  Forall (λ e, result (lookupBySymbolicName e.1) = Num e.2) jsdoc_defaults.
Proof.
  split; [reflexivity|].
  apply (bool_decide_unpack _). vm_compute. exact I.
Qed.
